(** * Style-generation teachers of ParlAI: parlai/tasks/style_gen/agents.py

    A shallow embedding of the module's two path helpers, of the four
    [Labeled*] teacher constructors and of [PrevCurrUttStyleTeacher.act],
    together with the properties the specification states about them.

    Python objects that are mutated in place (a [Message], an [Opt]) live in
    a store of dictionaries and are handled through references, so that
    aliasing between the fetched turn and its deep copy is visible.
    Exceptions are values of [exn]; a computation is a function from the
    state to an outcome and the state it leaves behind. Strings are
    sequences of 8-bit characters. *)

From Stdlib Require Import Ascii String List.
From stdpp Require Import base option gmap strings list fin_maps.

Set Warnings "-register-all".

Local Open Scope string_scope.

(** ** Python values held by the fields of a turn or of an option table *)

Inductive value :=
| VNone
| VBool (b : bool)
| VInt (z : Z)
| VStr (s : string)
| VList (items : list value)
| VTuple (items : list value).

(** A dictionary with string keys: [Message] and [Opt] are both subclasses of
    [dict]. *)
Abbreviation pydict := (gmap string value).

(** ** Exceptions and computations *)

(** [InvalidRef] belongs to the model only: it is the outcome of following a
    reference that is not in the store, which Python never produces. *)
Inductive exn :=
| ValueError (msg : string)
| AssertionError
| KeyError (key : string)
| TypeError
| AttributeError
| IndexError
| InvalidRef.

Inductive outcome (A : Type) :=
| Ret (a : A)
| Raise (e : exn).
Arguments Ret {A} a.
Arguments Raise {A} e.

Definition comp (St A : Type) : Type := St → outcome A * St.

Definition ret {St A} (a : A) : comp St A := λ s, (Ret a, s).

Definition raise {St A} (e : exn) : comp St A := λ s, (Raise e, s).

Definition bind {St A B} (c : comp St A) (k : A → comp St B) : comp St B :=
  λ s, match c s with
       | (Ret a, s') => k a s'
       | (Raise e, s') => (Raise e, s')
       end.

Definition pure_step {St A} (o : outcome A) : comp St A := λ s, (o, s).

Definition py_assert {St} (b : bool) : comp St unit :=
  if b then ret tt else raise AssertionError.

Notation "'let*' x := c 'in' k" := (bind c (λ x, k))
  (at level 10, x name, c at level 100, k at level 200).
Notation "c ;;; k" := (bind c (λ _, k))
  (at level 100, k at level 200, right associativity).

(** ** Strings *)

Definition nl : ascii := "010"%char.

Definition colon : ascii := ":"%char.

Definition NL : string := String nl "".

(** [s.split(sep)] for a separator of one character. *)
Fixpoint split (sep : ascii) (s : string) : list string :=
  match s with
  | "" => [""]
  | String c s' =>
      if Ascii.eqb c sep then "" :: split sep s'
      else match split sep s' with
           | [] => [String c ""]
           | piece :: pieces => String c piece :: pieces
           end
  end.

(** [sep.join(xs)], the inverse of [split]. *)
Fixpoint join (sep : string) (xs : list string) : string :=
  match xs with
  | [] => ""
  | x :: xs' =>
      match xs' with
      | [] => x
      | _ :: _ => x +:+ sep +:+ join sep xs'
      end
  end.

(** [needle in hay] on strings: substring search. *)
Fixpoint str_contains (needle hay : string) : bool :=
  String.prefix needle hay ||
  match hay with
  | "" => false
  | String _ hay' => str_contains needle hay'
  end.

(** [xs[0]] and [xs[-1]] on a Python list. *)
Definition index_first {A} (xs : list A) : outcome A :=
  match xs with
  | [] => Raise IndexError
  | x :: _ => Ret x
  end.

Definition index_last {A} (xs : list A) : outcome A :=
  match last xs with
  | None => Raise IndexError
  | Some x => Ret x
  end.

(** The character [c] is somewhere in [s]. *)
Definition occurs (c : ascii) (s : string) : Prop :=
  ∃ pre suf, s = pre +:+ String c suf.

(** [suf] is what follows the last [c] of [s] (all of [s] when it has none). *)
Definition is_after_last (c : ascii) (s suf : string) : Prop :=
  ¬ occurs c suf ∧ (s = suf ∨ ∃ pre, s = pre +:+ String c suf).

(** [pre] is what precedes the first [c] of [s] (all of [s] when it has
    none). *)
Definition is_before_first (c : ascii) (s pre : string) : Prop :=
  ¬ occurs c pre ∧ (s = pre ∨ ∃ rest, s = pre +:+ String c rest).

(** ** Operations on dynamically typed values *)

(** [len(v)] *)
Definition py_len (v : value) : outcome nat :=
  match v with
  | VStr s => Ret (String.length s)
  | VList items | VTuple items => Ret (length items)
  | VNone | VBool _ | VInt _ => Raise TypeError
  end.

(** [v[0]] *)
Definition py_item0 (v : value) : outcome value :=
  match v with
  | VStr "" => Raise IndexError
  | VStr (String c _) => Ret (VStr (String c ""))
  | VList items | VTuple items => index_first items
  | VNone | VBool _ | VInt _ => Raise TypeError
  end.

(** [v == s] for a string [s] *)
Definition is_str (s : string) (v : value) : bool :=
  match v with
  | VStr s' => String.eqb s s'
  | _ => false
  end.

(** [needle in v] for a string [needle] *)
Definition py_contains (needle : string) (v : value) : outcome bool :=
  match v with
  | VStr hay => Ret (str_contains needle hay)
  | VList items | VTuple items => Ret (existsb (is_str needle) items)
  | VNone | VBool _ | VInt _ => Raise TypeError
  end.

(** [v.split(sep)] *)
Definition py_split (sep : ascii) (v : value) : outcome (list string) :=
  match v with
  | VStr s => Ret (split sep s)
  | _ => Raise AttributeError
  end.

(** [s + v] for a string [s] *)
Definition py_str_add (s : string) (v : value) : outcome string :=
  match v with
  | VStr s' => Ret (s +:+ s')
  | _ => Raise TypeError
  end.

(** [d[key]] *)
Definition py_getitem (d : pydict) (key : string) : outcome value :=
  match d !! key with
  | Some v => Ret v
  | None => Raise (KeyError key)
  end.

(** [key in d] *)
Definition py_in (key : string) (d : pydict) : bool :=
  bool_decide (is_Some (d !! key)).

(** [v is True] *)
Definition is_True (v : value) : bool :=
  match v with
  | VBool true => true
  | _ => false
  end.

(** ** The store of dictionaries *)

Abbreviation loc := positive.
Abbreviation store := (gmap positive (gmap string value)).

Definition deref (l : loc) : comp store pydict :=
  λ h, match h !! l with
       | Some d => (Ret d, h)
       | None => (Raise InvalidRef, h)
       end.

Definition alloc (d : pydict) : comp store loc :=
  λ h, let l := fresh (dom h) in (Ret l, <[l := d]> h).

(** [copy.deepcopy(l)]: a new object with the same fields. Field values are
    immutable trees in this model, so copying them is the identity. *)
Definition deepcopy (l : loc) : comp store loc :=
  let* d := deref l in alloc d.

(** [l[key]] *)
Definition getitem (l : loc) (key : string) : comp store value :=
  let* d := deref l in pure_step (py_getitem d key).

(** [key in l] *)
Definition contains (key : string) (l : loc) : comp store bool :=
  let* d := deref l in ret (py_in key d).

(** [dict.__setitem__(l, key, v)] *)
Definition dict_set (l : loc) (key : string) (v : value) : comp store unit :=
  λ h, match h !! l with
       | Some d => (Ret tt, <[l := <[key := v]> d]> h)
       | None => (Raise InvalidRef, h)
       end.

(** Modelled from the spec: [Message.force_set] (parlai/core/message.py) is
    the operation by which a field of a turn "is set to", "is replaced by" or
    "is forced to" a value, whether or not the field is already present. *)
Definition force_set (l : loc) (key : string) (v : value) : comp store unit :=
  dict_set l key v.

(** A computation on the store alone, run in a larger state. *)
Definition on_store {T A} (c : comp store A) : comp (T * store) A :=
  λ '(t, h), let '(r, h') := c h in (r, (t, h')).

(** ** PrevCurrUttStyleTeacher *)

(** The message of the [ValueError]; [type_name] is [type(self).__name__]. *)
Definition one_label_message (type_name : string) : string :=
  type_name +:+ " can only be used with one label!".

(** The part of [act] under the comment "Edit the fields of the act":
    from the deep copy to the last [force_set]. It yields [new_act]. *)
Definition edit_fields (type_name : string) (orig_act : loc) : comp store loc :=
  let* new_act := deepcopy orig_act in
  let* has_labels := contains "labels" orig_act in
  (if has_labels then
     let* labels := getitem orig_act "labels" in
     let* n := pure_step (py_len labels) in
     (if negb (n =? 1)%nat then raise (ValueError (one_label_message type_name))
      else ret tt) ;;;
     let* label0 := pure_step (py_item0 labels) in
     let* found := pure_step (py_contains NL label0) in
     py_assert (negb found) ;;;
     let* text := getitem new_act "text" in
     let* pieces := pure_step (py_split nl text) in
     let* prev := pure_step (index_last pieces) in
     let* new_text := pure_step (py_str_add (prev +:+ NL) label0) in
     force_set new_act "text" (VStr new_text) ;;;
     let* personality := getitem new_act "personality" in
     force_set new_act "labels" (VList [personality])
   else
     let* has_text := contains "text" orig_act in
     if has_text then raise AssertionError
     else
       let* done := getitem orig_act "episode_done" in
       py_assert (is_True done)) ;;;
  force_set new_act "episode_done" (VBool true) ;;;
  ret new_act.

(** The two operations of the wrapped task that [act] calls. Both belong to
    [FixedDialogTeacher] (parlai/core/teachers.py); they act on the task's
    own state and on the store. *)
Class FixedDialogTeacher (T : Type) := {
  get_orig_action : comp (T * store) loc;
  process_action : loc → comp (T * store) loc
}.

Section Act.
Context {T : Type} `{FixedDialogTeacher T}.
Variable type_name : string.

Definition act : comp (T * store) loc :=
  let* orig_act := get_orig_action in
  let* new_act := on_store (edit_fields type_name orig_act) in
  let* final_action := process_action orig_act in
  ret final_action.

(** The wrapped task hands back the very turn it is asked to process and
    leaves the store alone: the "advance past this turn" operation of the
    wrapper contract. *)
Definition passes_through : Prop :=
  ∀ l (task : T) (h : store),
    ∃ task', process_action l (task, h) = (Ret l, (task', h)).

End Act.

(** [labels] is a list or a tuple whose only entry is [label]. *)
Definition sole_label (labels label : value) : Prop :=
  labels = VList [label] ∨ labels = VTuple [label].

(** The turn that [edit_fields] builds from a labeled turn [m]. *)
Definition edited_turn (m : pydict) (prev label : string) (personality : value)
  : pydict :=
  <["episode_done" := VBool true]>
    (<["labels" := VList [personality]]>
       (<["text" := VStr ((prev +:+ NL) +:+ label)]> m)).


(** The stores that [edit_fields] can leave behind when it starts in [h]:
    [h] itself, or [h] with one more object at the unused location. *)
Definition extends_by_copy (h h' : store) : Prop :=
  h' = h ∨ ∃ d, h' = <[fresh (dom h) := d]> h.

(** The named field of the object a computation on the store yields. *)
Definition edited_field (key : string) (r : outcome loc * store) : option value :=
  match r with
  | (Ret l, h) => h !! l ≫= (.!! key)
  | (Raise _, _) => None
  end.

(** The named field of the turn a computation returns, if it returns one. *)
Definition returned_field {T} (key : string) (r : outcome loc * (T * store))
  : option value :=
  match r with
  | (Ret l, (_, h)) => h !! l ≫= (.!! key)
  | (Raise _, _) => None
  end.

(** ** The path helpers and the Labeled* teachers *)

(** [path.endswith('/')] *)
Fixpoint ends_with_sep (s : string) : bool :=
  match s with
  | "" => false
  | String c s' =>
      match s' with
      | "" => Ascii.eqb c "/"
      | String _ _ => ends_with_sep s'
      end
  end.

(** [os.path.join(a, *p)] of posixpath. *)
Fixpoint os_path_join (a : string) (p : list string) : string :=
  match p with
  | [] => a
  | b :: p' =>
      os_path_join
        (if String.prefix "/" b then b
         else if String.eqb a "" || ends_with_sep a then a +:+ b
         else a +:+ "/" +:+ b)
        p'
  end.

(** [os.path.join(v, *p)] when the first component is any value. *)
Definition py_path_join (v : value) (p : list string) : outcome string :=
  match v with
  | VStr a => Ret (os_path_join a p)
  | _ => Raise TypeError
  end.

(** What this module imports from parlai/tasks/style_gen/build.py. The two
    builders receive the option table by reference and work on what is on
    disk, of type [D]; the folder function receives whatever value the
    table holds under ['datapath']. *)
Class StyleGenBuild (D : Type) := {
  build_style_labeled_datasets : loc → comp (D * store) unit;
  build_personality_list : loc → comp (D * store) unit;
  get_style_labeled_data_folder : value → outcome string;
  TASK_FOLDER_NAME : string
}.

Inductive labeled_teacher :=
| LabeledBlendedSkillTalkTeacher
| LabeledConvAI2PersonaTopicifierTeacher
| LabeledEDPersonaTopicifierTeacher
| LabeledWoWPersonaTopicifierTeacher.

(** The [base_task] argument of each constructor. *)
Definition base_task_of (t : labeled_teacher) : string :=
  match t with
  | LabeledBlendedSkillTalkTeacher => "blended_skill_talk"
  | LabeledConvAI2PersonaTopicifierTeacher =>
      "blended_skill_talk:ConvAI2PersonaTopicifierTeacher"
  | LabeledEDPersonaTopicifierTeacher =>
      "blended_skill_talk:EDPersonaTopicifierTeacher"
  | LabeledWoWPersonaTopicifierTeacher =>
      "blended_skill_talk:WoWPersonaTopicifierTeacher"
  end.

Definition datafile_key : string := "parlaidialogteacher_datafile".

Section Paths.
Context {D : Type} `{StyleGenBuild D}.

Definition get_style_labeled_data_path (opt : loc) (base_task : string)
  : comp (D * store) string :=
  build_style_labeled_datasets opt ;;;
  let* datatype := on_store (getitem opt "datatype") in
  let* pieces := pure_step (py_split colon datatype) in
  let* dt := pure_step (index_first pieces) in
  let* datapath := on_store (getitem opt "datapath") in
  let* folder := pure_step (get_style_labeled_data_folder datapath) in
  ret (os_path_join folder [base_task; dt +:+ ".txt"]).

Definition get_personality_list_path (opt : loc) : comp (D * store) string :=
  build_personality_list opt ;;;
  let* datapath := on_store (getitem opt "datapath") in
  pure_step (py_path_join datapath [TASK_FOLDER_NAME; "personality_list.txt"]).

(** The first statement of each [Labeled*] constructor. *)
Definition set_datafile (t : labeled_teacher) (opt : loc) : comp (D * store) unit :=
  let* path := get_style_labeled_data_path opt (base_task_of t) in
  on_store (dict_set opt datafile_key (VStr path)).

(** [reader] is [ParlAIDialogTeacher.__init__(opt, shared)], the generic
    reader of parlai/core/teachers.py, which yields the teacher object. *)
Context {Shared Teacher : Type}.
Variable reader : loc → option Shared → comp (D * store) Teacher.

Definition labeled_teacher_init (t : labeled_teacher) (opt : loc)
    (shared : option Shared) : comp (D * store) Teacher :=
  set_datafile t opt ;;;
  reader opt shared.

End Paths.

(** ** The collaborators, as the specification describes them *)

Module SpecSource.

Record source := { turns : list pydict; cursor : nat }.

Definition terminal_turn : pydict := {[ "episode_done" := VBool true ]}.

Definition current (s : source) : pydict :=
  default terminal_turn (turns s !! cursor s).

Definition advance (s : source) : source :=
  {| turns := turns s; cursor := S (cursor s) |}.

(** Modelled from the spec: the inner data source behind the wrapper
    contract ("get current raw turn" and "advance past this turn"), which is
    in parlai/core/teachers.py. It hands out each turn of a fixed sequence as
    a new object in the store, hands out the terminal turn
    [{episode_done: true}] at the end of the data, and advances its cursor
    when the turn is processed, returning the very turn it was given. *)
#[export] Instance source_teacher : FixedDialogTeacher source := {
  get_orig_action := λ '(s, h),
    let '(r, h') := alloc (current s) h in (r, (s, h'));
  process_action := λ l '(s, h), (Ret l, (advance s, h))
}.

Definition source_of (turn : pydict) : source :=
  {| turns := [turn]; cursor := 0 |}.

End SpecSource.

Module SpecBuild.

(** The dataset files present on disk. *)
Definition disk := gset string.

Definition task_folder : string := "style_gen".

Definition ensure (file : string) (opt : loc) : comp (disk * store) unit :=
  λ '(d, h), (Ret tt, ({[ file ]} ∪ d, h)).

(** Modelled from the spec: the builder interface ("ensure built, return file
    path", idempotent, build-if-absent) of parlai/tasks/style_gen/build.py.
    Building adds what is missing on disk and leaves the option table alone;
    the labeled datasets are located under a task-specific data folder. *)
#[export] Instance spec_build : StyleGenBuild disk := {
  build_style_labeled_datasets := ensure "labeled_datasets";
  build_personality_list := ensure "personality_list.txt";
  get_style_labeled_data_folder := λ datapath,
    py_path_join datapath [task_folder; "labeled_datasets"];
  TASK_FOLDER_NAME := task_folder
}.

(** A generic reader that only looks up the data file it was given. *)
Definition reader_init (opt : loc) (shared : option unit)
  : comp (disk * store) value :=
  on_store (getitem opt datafile_key).

End SpecBuild.

Import SpecSource SpecBuild.

(** ** Sample turns and option tables *)

Definition teacher_name : string := "PrevCurrUttStyleTeacher".

(** The end-to-end example of the specification. *)
Definition example_turn : pydict :=
  <["text" := VStr ("hi" +:+ NL +:+ "how are you")]>
    (<["labels" := VList [VStr "good thanks"]]>
       (<["personality" := VStr "cheerful"]> ∅)).

Definition open_turn : pydict :=
  <["episode_done" := VBool false]> example_turn.

Definition two_label_turn : pydict :=
  <["labels" := VList [VStr "good"; VStr "thanks"]]> example_turn.

Definition text_only_turn : pydict :=
  <["text" := VStr "hi"]> (<["episode_done" := VBool true]> ∅).

Definition newline_label_turn : pydict :=
  <["labels" := VList [VStr ("good" +:+ NL +:+ "thanks")]]> example_turn.


Definition example_opt : pydict :=
  <["datatype" := VStr "train:stream"]> (<["datapath" := VStr "/data"]> ∅).

Definition example_folder : string := "/data/style_gen/labeled_datasets".

(** ** Further sample inputs *)

(** The number of occurrences of [c] in [s]. *)
Fixpoint count_char (c : ascii) (s : string) : nat :=
  match s with
  | "" => 0
  | String a s' => (if Ascii.eqb a c then 1 else 0) + count_char c s'
  end.

(** What posixpath puts between [path] and the next relative component. *)
Definition sep_after (path : string) : string :=
  if String.eqb path "" || ends_with_sep path then "" else "/".

Definition empty_turn : pydict := ∅.

Definition no_personality_turn : pydict :=
  <["text" := VStr ("hi" +:+ NL +:+ "how are you")]>
    (<["labels" := VList [VStr "good thanks"]]> ∅).

Definition none_text_turn : pydict := <["text" := VNone]> example_turn.

Definition int_label_turn : pydict := <["labels" := VList [VInt 5]]> example_turn.

Definition opt_without_datatype : pydict := <["datapath" := VStr "/data"]> ∅.

Definition opt_without_datapath : pydict := <["datatype" := VStr "train"]> ∅.

Definition opt_none_datatype : pydict :=
  <["datatype" := VNone]> (<["datapath" := VStr "/data"]> ∅).

Definition opt_int_datapath : pydict :=
  <["datatype" := VStr "train"]> (<["datapath" := VInt 3]> ∅).

Definition opt_absolute_datatype : pydict :=
  <["datatype" := VStr "/tmp/x:stream"]> (<["datapath" := VStr "/data"]> ∅).

(** ** Proof automation *)

Ltac unfold_comp :=
  unfold deepcopy, getitem, contains, force_set, dict_set, deref, alloc,
    py_getitem, index_last, py_assert, pure_step, bind, ret, raise in *.

(** Symbolic evaluation of a computation: simplify, then rewrite with the
    lookups that are known, until nothing moves. *)
Ltac crunch :=
  repeat (simpl;
          first [ rewrite lookup_insert_eq
                | rewrite insert_insert_eq
                | rewrite lookup_insert_ne by done
                | match goal with H : _ = _ |- _ => rewrite H end ]).

Ltac run_edit Hl :=
  unfold edit_fields; unfold_comp;
  let Hfresh := fresh "Hfresh" in
  let Hne := fresh "Hne" in
  match type of Hl with
  | ?h !! ?l = Some _ =>
      pose proof (not_elem_of_dom_1 h _ (is_fresh (dom h))) as Hfresh;
      assert (l ≠ fresh (dom h)) as Hne by congruence;
      assert (fresh (dom h) ≠ l) by congruence;
      clear Hfresh; crunch
  end.

(** ** Properties of the string operations *)

Example split_sample :
  split nl ("hi" +:+ NL +:+ "how are you") = ["hi"; "how are you"].
Proof. reflexivity. Qed.

Example split_trailing_separator : split colon "train:" = ["train"; ""].
Proof. reflexivity. Qed.

Example os_path_join_sample :
  os_path_join "/data/" ["style_gen"; "/abs"; "train.txt"] = "/abs/train.txt".
Proof. reflexivity. Qed.

Lemma occurs_nil c : ¬ occurs c "".
Proof. intros [[|a pre] [suf E]]; discriminate. Qed.

Lemma occurs_cons c a s : occurs c (String a s) ↔ a = c ∨ occurs c s.
Proof.
  split.
  - intros [[|b pre] [suf E]]; simpl in E; injection E as -> ->.
    + by left.
    + right. by exists pre, suf.
  - intros [-> | (pre & suf & ->)].
    + by exists "", s.
    + by exists (String a pre), suf.
Qed.

Lemma str_app_assoc (a b c : string) : (a +:+ b) +:+ c = a +:+ (b +:+ c).
Proof.
  induction a as [|x a IH]; [done|].
  change (String x ((a +:+ b) +:+ c) = String x (a +:+ (b +:+ c))).
  by rewrite IH.
Qed.

Lemma split_not_nil sep s : split sep s ≠ [].
Proof.
  destruct s as [|c s]; simpl; [done|].
  destruct (Ascii.eqb c sep); [done|]. by destruct (split sep s).
Qed.

Lemma split_first sep s :
  ∃ pre rest, split sep s = pre :: rest ∧ is_before_first sep s pre.
Proof.
  induction s as [|c s (pre & rest & E & Hno & Hs)]; simpl.
  - exists "", []. split; [done|]. split; [apply occurs_nil | by left].
  - destruct (Ascii.eqb_spec c sep) as [->|Hne].
    + exists "", (split sep s). split; [done|].
      split; [apply occurs_nil | right; by exists s].
    + rewrite E. exists (String c pre), rest. split; [done|]. split.
      * rewrite occurs_cons. tauto.
      * destruct Hs as [->|[r ->]]; [by left | right; by exists r].
Qed.

Lemma split_join sep s : join (String sep "") (split sep s) = s.
Proof.
  induction s as [|c s IH]; [done|]. simpl split.
  destruct (Ascii.eqb_spec c sep) as [->|Hne].
  - destruct (split sep s) as [|x xs] eqn:E; [by destruct (split_not_nil sep s)|].
    change (join (String sep "") ("" :: x :: xs))
      with (String sep (join (String sep "") (x :: xs))).
    by rewrite IH.
  - destruct (split sep s) as [|x xs]; [simpl in *; congruence|].
    destruct xs as [|y ys]; by rewrite <- IH.
Qed.

Lemma split_pieces_clean sep s :
  Forall (λ piece, ¬ occurs sep piece) (split sep s).
Proof.
  induction s as [|c s IH]; simpl.
  - constructor; [apply occurs_nil | constructor].
  - destruct (Ascii.eqb_spec c sep) as [->|Hne].
    + constructor; [apply occurs_nil | done].
    + destruct (split sep s) as [|x xs] eqn:E;
        [by destruct (split_not_nil sep s)|].
      inversion_clear IH. constructor; [|done].
      rewrite occurs_cons. tauto.
Qed.

Lemma join_snoc sep xs x :
  xs ≠ [] → join sep (xs ++ [x]) = join sep xs +:+ sep +:+ x.
Proof.
  induction xs as [|y ys IH]; [done|]. intros _.
  destruct ys as [|z zs]; [done|].
  change (join sep ((y :: z :: zs) ++ [x]))
    with (y +:+ sep +:+ join sep ((z :: zs) ++ [x])).
  rewrite IH by done.
  change (join sep (y :: z :: zs)) with (y +:+ sep +:+ join sep (z :: zs)).
  by rewrite !str_app_assoc.
Qed.

Lemma split_last sep s :
  ∃ suf, last (split sep s) = Some suf ∧ is_after_last sep s suf.
Proof.
  destruct (last (split sep s)) as [suf|] eqn:E;
    [|apply last_None in E; by destruct (split_not_nil sep s)].
  exists suf. split; [done|].
  apply last_Some in E as [init E].
  pose proof (split_pieces_clean sep s) as Hclean.
  pose proof (split_join sep s) as Hjoin.
  rewrite E in Hclean, Hjoin.
  rewrite Forall_app, Forall_singleton in Hclean. destruct Hclean as [_ Hsuf].
  split; [exact Hsuf|].
  destruct init as [|x init]; [by left|]. right.
  rewrite join_snoc in Hjoin by done.
  exists (join (String sep "") (x :: init)). by rewrite <- Hjoin.
Qed.

Lemma str_prefix_nil s : String.prefix "" s = true.
Proof. by destruct s. Qed.

Lemma str_contains_char c s : str_contains (String c "") s = true ↔ occurs c s.
Proof.
  induction s as [|a s IH]; simpl.
  - split; [done | intros Ho; by destruct (occurs_nil c)].
  - rewrite occurs_cons, <- IH. destruct (ascii_dec c a) as [->|Hne].
    + rewrite str_prefix_nil. simpl. tauto.
    + simpl. split; [tauto | intros [->|?]; [done | tauto]].
Qed.

Lemma str_contains_char_false c s :
  str_contains (String c "") s = false ↔ ¬ occurs c s.
Proof. rewrite <- str_contains_char. by destruct (str_contains _ s). Qed.

(** ** Properties of the value and store operations *)

Lemma is_True_false v : is_True v = false ↔ v ≠ VBool true.
Proof. destruct v as [| [|] | | | |]; simpl; split; congruence. Qed.


Lemma py_in_true key (d : pydict) v : d !! key = Some v → py_in key d = true.
Proof. intros E. unfold py_in. apply bool_decide_eq_true. by exists v. Qed.

Lemma py_in_false key (d : pydict) : d !! key = None → py_in key d = false.
Proof.
  intros E. unfold py_in. apply bool_decide_eq_false. rewrite E. by intros [? ?].
Qed.

Lemma fresh_loc_unused (h : store) : h !! fresh (dom h) = None.
Proof. apply not_elem_of_dom, is_fresh. Qed.

Lemma bind_ret_r {St A} (c : comp St A) (s : St) :
  bind c (λ a, ret a) s = c s.
Proof. unfold bind, ret. by destruct (c s) as [[a|e] s']. Qed.

(** ** The field-editing step of [act], branch by branch *)

Lemma edit_fields_store tn l h : extends_by_copy h (edit_fields tn l h).2.
Proof.
  unfold edit_fields, extends_by_copy. unfold_comp.
  pose proof (fresh_loc_unused h) as Hfresh.
  set (l' := fresh (dom h)) in *.
  destruct (h !! l) as [m|] eqn:Hl; simpl; [|by left].
  assert (l ≠ l') as Hne by congruence.
  rewrite lookup_insert_ne by done. rewrite Hl. simpl.
  repeat (first [ case_match | rewrite lookup_insert_eq | rewrite insert_insert_eq
                | rewrite lookup_insert_ne by done ]; simpl; simplify_eq).
  all: eauto.
Qed.

Lemma edit_fields_labeled tn (h : store) l m labels L txt P :
  h !! l = Some m →
  m !! "labels" = Some labels → sole_label labels (VStr L) → ¬ occurs nl L →
  m !! "text" = Some (VStr txt) → m !! "personality" = Some P →
  ∃ prev, is_after_last nl txt prev ∧
    edit_fields tn l h
    = (Ret (fresh (dom h)), <[fresh (dom h) := edited_turn m prev L P]> h).
Proof.
  intros Hl Hlabels Hsole Hclean Htext Hpers.
  destruct (split_last nl txt) as (prev & Hlast & Hprev).
  exists prev. split; [done|]. clear Hprev.
  apply str_contains_char_false in Hclean. fold NL in Hclean.
  pose proof (py_in_true _ _ _ Hlabels).
  destruct Hsole as [-> | ->]; by run_edit Hl.
Qed.

Lemma edit_fields_terminal tn (h : store) l m :
  h !! l = Some m →
  m !! "labels" = None → m !! "text" = None →
  m !! "episode_done" = Some (VBool true) →
  edit_fields tn l h = (Ret (fresh (dom h)), <[fresh (dom h) := m]> h).
Proof.
  intros Hl Hlabels Htext Hdone.
  pose proof (py_in_false _ _ Hlabels). pose proof (py_in_false _ _ Htext).
  run_edit Hl. by rewrite (insert_id m) by done.
Qed.

Lemma edit_fields_label_count tn (h : store) l m labels n :
  h !! l = Some m → m !! "labels" = Some labels →
  py_len labels = Ret n → n ≠ 1 →
  edit_fields tn l h
  = (Raise (ValueError (one_label_message tn)), <[fresh (dom h) := m]> h).
Proof.
  intros Hl Hlabels Hlen Hn.
  pose proof (py_in_true _ _ _ Hlabels).
  apply Nat.eqb_neq in Hn. by run_edit Hl.
Qed.

Lemma edit_fields_label_newline tn (h : store) l m labels L :
  h !! l = Some m → m !! "labels" = Some labels →
  sole_label labels (VStr L) → occurs nl L →
  edit_fields tn l h = (Raise AssertionError, <[fresh (dom h) := m]> h).
Proof.
  intros Hl Hlabels Hsole Hnl.
  pose proof (py_in_true _ _ _ Hlabels).
  apply str_contains_char in Hnl. fold NL in Hnl.
  destruct Hsole as [-> | ->]; by run_edit Hl.
Qed.

Lemma edit_fields_unlabeled_text tn (h : store) l m :
  h !! l = Some m → m !! "labels" = None → is_Some (m !! "text") →
  edit_fields tn l h = (Raise AssertionError, <[fresh (dom h) := m]> h).
Proof.
  intros Hl Hlabels [t Htext].
  pose proof (py_in_false _ _ Hlabels). pose proof (py_in_true _ _ _ Htext).
  by run_edit Hl.
Qed.

Lemma edit_fields_unlabeled_not_done tn (h : store) l m v :
  h !! l = Some m → m !! "labels" = None → m !! "text" = None →
  m !! "episode_done" = Some v → v ≠ VBool true →
  edit_fields tn l h = (Raise AssertionError, <[fresh (dom h) := m]> h).
Proof.
  intros Hl Hlabels Htext Hdone Hv.
  pose proof (py_in_false _ _ Hlabels). pose proof (py_in_false _ _ Htext).
  apply is_True_false in Hv. by run_edit Hl.
Qed.

(** With neither [labels], [text] nor [episode_done], it is the lookup inside
    the assertion that fails. *)
Lemma edit_fields_unlabeled_no_flag tn (h : store) l m :
  h !! l = Some m → m !! "labels" = None → m !! "text" = None →
  m !! "episode_done" = None →
  edit_fields tn l h
  = (Raise (KeyError "episode_done"), <[fresh (dom h) := m]> h).
Proof.
  intros Hl Hlabels Htext Hdone.
  pose proof (py_in_false _ _ Hlabels). pose proof (py_in_false _ _ Htext).
  by run_edit Hl.
Qed.


(** ** [act] in terms of its three steps *)

Section ActSteps.
Context {T : Type} `{FixedDialogTeacher T}.
Variables (tn : string) (task task1 : T) (h h1 h2 : store) (l : loc).
Hypothesis Hfetch : get_orig_action (task, h) = (Ret l, (task1, h1)).

Lemma act_edit_raises e :
  edit_fields tn l h1 = (Raise e, h2) →
  act tn (task, h) = (Raise e, (task1, h2)).
Proof.
  intros Hedit. unfold act, bind, on_store. by rewrite Hfetch, Hedit.
Qed.

Lemma act_edit_returns new_act :
  edit_fields tn l h1 = (Ret new_act, h2) →
  act tn (task, h) = process_action l (task1, h2).
Proof.
  intros Hedit. unfold act. unfold bind at 1. rewrite Hfetch.
  unfold bind at 1. unfold on_store. rewrite Hedit. apply bind_ret_r.
Qed.

End ActSteps.

Lemma source_passes_through : passes_through (T := source).
Proof. intros l task h. by exists (advance task). Qed.

(** [act] hands the fetched turn, not the edited copy, to the wrapped task.
    With a task that passes its turn through, the turn returned on a
    well-formed labeled turn is therefore the fetched one, field for field,
    while the edited copy stays behind in the store. *)
Lemma act_returns_fetched_turn {T} `{FixedDialogTeacher T} tn
    (task task1 : T) (h h1 : store) l m labels L txt P :
  passes_through →
  get_orig_action (task, h) = (Ret l, (task1, h1)) →
  h1 !! l = Some m →
  m !! "labels" = Some labels → sole_label labels (VStr L) → ¬ occurs nl L →
  m !! "text" = Some (VStr txt) → m !! "personality" = Some P →
  ∃ prev task2 h2,
    is_after_last nl txt prev ∧
    h2 !! fresh (dom h1) = Some (edited_turn m prev L P) ∧
    act tn (task, h) = (Ret l, (task2, h2)) ∧ h2 !! l = Some m.
Proof.
  intros Hpass Hfetch Hl Hlabels Hsole Hclean Htext Hpers.
  destruct (edit_fields_labeled tn h1 l m labels L txt P)
    as (prev & Hprev & Hedit); [done..|].
  set (h2 := <[fresh (dom h1) := edited_turn m prev L P]> h1) in *.
  destruct (Hpass l task1 h2) as [task2 Hproc].
  exists prev, task2, h2. split; [done|].
  split; [apply lookup_insert_eq|]. split.
  - rewrite <- Hproc. by eapply act_edit_returns.
  - unfold h2. rewrite lookup_insert_ne; [done|].
    pose proof (fresh_loc_unused h1). congruence.
Qed.

(** A turn with none of [labels], [text] and [episode_done] stops [act] with
    the [KeyError] of the lookup inside its assertion. *)
Lemma act_unlabeled_turn_without_flag {T} `{FixedDialogTeacher T} tn
    (task task1 : T) (h h1 : store) l m :
  get_orig_action (task, h) = (Ret l, (task1, h1)) →
  h1 !! l = Some m → m !! "labels" = None → m !! "text" = None →
  m !! "episode_done" = None →
  ∃ h2, act tn (task, h) = (Raise (KeyError "episode_done"), (task1, h2)).
Proof.
  intros Hfetch Hl Hlabels Htext Hdone. eexists.
  eapply act_edit_raises; [done|]. by eapply edit_fields_unlabeled_no_flag.
Qed.

(** ** PrevCurrUttStyleTeacher.act: what it returns *)

(** C1: on the end-to-end example of the specification the edited copy holds
    the rewritten text (last line of the text, newline, label) and the
    personality as its only label, but the turn that [act] returns still has
    the text and the label of the fetched turn. *)
Theorem C1_act_returns_unedited_text :
  edited_field "text"
    (edit_fields teacher_name 1%positive (<[1%positive := example_turn]> ∅))
  = Some (VStr ("how are you" +:+ NL +:+ "good thanks")) ∧
  edited_field "labels"
    (edit_fields teacher_name 1%positive (<[1%positive := example_turn]> ∅))
  = Some (VList [VStr "cheerful"]) ∧
  returned_field "text" (act teacher_name (source_of example_turn, ∅))
  = Some (VStr ("hi" +:+ NL +:+ "how are you")) ∧
  returned_field "labels" (act teacher_name (source_of example_turn, ∅))
  = Some (VList [VStr "good thanks"]).
Proof. repeat split; vm_compute; reflexivity. Qed.

(** C2: on a labeled turn whose [episode_done] is false, the edited copy has
    [episode_done] true but the turn that [act] returns has it false. *)
Theorem C2_act_returns_open_episode :
  edited_field "episode_done"
    (edit_fields teacher_name 1%positive (<[1%positive := open_turn]> ∅))
  = Some (VBool true) ∧
  returned_field "episode_done" (act teacher_name (source_of open_turn, ∅))
  = Some (VBool false).
Proof. split; vm_compute; reflexivity. Qed.

(** C6: on a terminal turn (no [text], no [labels], [episode_done] true) the
    edited copy has exactly the fields of the fetched turn, and the turn that
    [act] returns has them too: nothing is added, removed or modified, and
    [episode_done] is still true. *)
Theorem C6_terminal_turn_unchanged {T} `{FixedDialogTeacher T} tn
    (task task1 : T) (h h1 : store) l m :
  passes_through →
  get_orig_action (task, h) = (Ret l, (task1, h1)) →
  h1 !! l = Some m →
  m !! "text" = None → m !! "labels" = None →
  m !! "episode_done" = Some (VBool true) →
  ∃ new_act h2 task2 final_action,
    edit_fields tn l h1 = (Ret new_act, h2) ∧ h2 !! new_act = Some m ∧
    act tn (task, h) = (Ret final_action, (task2, h2)) ∧
    h2 !! final_action = Some m.
Proof.
  intros Hpass Hfetch Hl Htext Hlabels Hdone.
  pose proof (edit_fields_terminal tn h1 l m Hl Hlabels Htext Hdone) as Hedit.
  destruct (Hpass l task1 (<[fresh (dom h1) := m]> h1)) as [task2 Hproc].
  exists (fresh (dom h1)), (<[fresh (dom h1) := m]> h1), task2, l.
  split; [done|]. split; [apply lookup_insert_eq|]. split.
  - rewrite <- Hproc. by eapply act_edit_returns.
  - rewrite lookup_insert_ne; [done|].
    pose proof (fresh_loc_unused h1). congruence.
Qed.

Lemma C6_terminal_turn_unchanged_witness :
  ∃ new_act h2 task2 final_action,
    edit_fields teacher_name 1%positive (<[1%positive := terminal_turn]> ∅)
    = (Ret new_act, h2) ∧ h2 !! new_act = Some terminal_turn ∧
    act teacher_name (source_of terminal_turn, ∅)
    = (Ret final_action, (task2, h2)) ∧
    h2 !! final_action = Some terminal_turn.
Proof.
  apply (C6_terminal_turn_unchanged teacher_name _ (source_of terminal_turn) ∅
           (<[1%positive := terminal_turn]> ∅) 1%positive terminal_turn);
    [apply source_passes_through | reflexivity | reflexivity | reflexivity
    | reflexivity | reflexivity].
Defined.

(** ** PrevCurrUttStyleTeacher.act: the turns it rejects *)

(** C3: a turn whose [labels] field is present with a length other than one
    makes [act] raise [ValueError]; no turn is returned and the wrapped task
    is not asked to process anything. *)
Theorem C3_label_count_rejected {T} `{FixedDialogTeacher T} tn
    (task task1 : T) (h h1 : store) l m labels n :
  get_orig_action (task, h) = (Ret l, (task1, h1)) →
  h1 !! l = Some m → m !! "labels" = Some labels →
  py_len labels = Ret n → n ≠ 1 →
  ∃ h2, act tn (task, h)
        = (Raise (ValueError (one_label_message tn)), (task1, h2)).
Proof.
  intros Hfetch Hl Hlabels Hlen Hn. eexists.
  eapply act_edit_raises; [done|]. by eapply edit_fields_label_count.
Qed.

Lemma C3_label_count_rejected_witness :
  ∃ h2, act teacher_name (source_of two_label_turn, ∅)
        = (Raise (ValueError (one_label_message teacher_name)),
           (source_of two_label_turn, h2)).
Proof.
  apply (C3_label_count_rejected teacher_name _ _ ∅
           (<[1%positive := two_label_turn]> ∅) 1%positive two_label_turn
           (VList [VStr "good"; VStr "thanks"]) 2);
    [reflexivity | reflexivity | reflexivity | reflexivity | lia].
Defined.

(** C4: a turn without [labels] that has a [text] field, or whose
    [episode_done] field holds anything but [True], fails the assertion of
    the unlabeled branch; no turn is returned. *)
Theorem C4_unlabeled_turn_asserted {T} `{FixedDialogTeacher T} tn
    (task task1 : T) (h h1 : store) l m :
  get_orig_action (task, h) = (Ret l, (task1, h1)) →
  h1 !! l = Some m → m !! "labels" = None →
  is_Some (m !! "text")
  ∨ (∃ v, m !! "episode_done" = Some v ∧ v ≠ VBool true) →
  ∃ h2, act tn (task, h) = (Raise AssertionError, (task1, h2)).
Proof.
  intros Hfetch Hl Hlabels Hbad. eexists.
  eapply act_edit_raises; [done|].
  destruct (m !! "text") as [t|] eqn:Htext.
  - eapply edit_fields_unlabeled_text; [done..|]. by rewrite Htext.
  - destruct Hbad as [[? [=]] | (v & Hdone & Hv)].
    by eapply edit_fields_unlabeled_not_done.
Qed.

Lemma C4_unlabeled_turn_asserted_witness :
  ∃ h2, act teacher_name (source_of text_only_turn, ∅)
        = (Raise AssertionError, (source_of text_only_turn, h2)).
Proof.
  apply (C4_unlabeled_turn_asserted teacher_name _ _ ∅
           (<[1%positive := text_only_turn]> ∅) 1%positive text_only_turn);
    [reflexivity | reflexivity | reflexivity | left; by exists (VStr "hi")].
Defined.

(** C4, as first stated, fails on the turn with no field at all: it has no
    [labels] and its [episode_done] is not true, yet [act] stops with the
    [KeyError] of the lookup inside the assertion, not with an assertion
    failure. *)
Lemma C4_absent_flag_counterexample :
  empty_turn !! "labels" = None ∧
  empty_turn !! "episode_done" ≠ Some (VBool true) ∧
  (act teacher_name (source_of empty_turn, ∅)).1
  = Raise (KeyError "episode_done") ∧
  ¬ (∃ h2, act teacher_name (source_of empty_turn, ∅)
           = (Raise AssertionError, (source_of empty_turn, h2))).
Proof.
  assert ((act teacher_name (source_of empty_turn, ∅)).1
          = Raise (KeyError "episode_done")) as Hrun
    by (vm_compute; reflexivity).
  split; [reflexivity|]. split; [discriminate|]. split; [exact Hrun|].
  intros [h2 E]. rewrite E in Hrun. discriminate.
Qed.

(** C5: when the only label of a turn contains a newline, [act] fails its
    assertion on the label; no turn is returned. *)
Theorem C5_newline_label_asserted {T} `{FixedDialogTeacher T} tn
    (task task1 : T) (h h1 : store) l m labels L :
  get_orig_action (task, h) = (Ret l, (task1, h1)) →
  h1 !! l = Some m → m !! "labels" = Some labels →
  sole_label labels (VStr L) → occurs nl L →
  ∃ h2, act tn (task, h) = (Raise AssertionError, (task1, h2)).
Proof.
  intros Hfetch Hl Hlabels Hsole Hnl. eexists.
  eapply act_edit_raises; [done|]. by eapply edit_fields_label_newline.
Qed.

Lemma C5_newline_label_asserted_witness :
  ∃ h2, act teacher_name (source_of newline_label_turn, ∅)
        = (Raise AssertionError, (source_of newline_label_turn, h2)).
Proof.
  apply (C5_newline_label_asserted teacher_name _ _ ∅
           (<[1%positive := newline_label_turn]> ∅) 1%positive
           newline_label_turn (VList [VStr ("good" +:+ NL +:+ "thanks")])
           ("good" +:+ NL +:+ "thanks"));
    [reflexivity | reflexivity | reflexivity | by left
    | by exists "good", "thanks"].
Defined.



(** ** PrevCurrUttStyleTeacher.act: the fetched turn is left alone *)

(** C8: the field rewrites of [act] go to a new object. Whatever the
    rewriting step does, the fetched turn has the fields it had, every other
    object that was in the store is as it was, and the wrapped task is then
    handed the fetched turn in that store. *)
Theorem C8_fetched_turn_not_mutated {T} `{FixedDialogTeacher T} tn
    (task task1 : T) (h h1 : store) l :
  get_orig_action (task, h) = (Ret l, (task1, h1)) →
  ∃ r h2,
    edit_fields tn l h1 = (r, h2) ∧
    h2 !! l = h1 !! l ∧ h1 ⊆ h2 ∧
    act tn (task, h)
    = match r with
      | Ret _ => process_action l (task1, h2)
      | Raise e => (Raise e, (task1, h2))
      end.
Proof.
  intros Hfetch.
  destruct (edit_fields tn l h1) as [r h2] eqn:Hedit. exists r, h2.
  pose proof (edit_fields_store tn l h1) as Hstore. rewrite Hedit in Hstore.
  simpl in Hstore.
  pose proof (fresh_loc_unused h1) as Hfresh.
  assert (h1 ⊆ h2) as Hsub.
  { destruct Hstore as [-> | [d ->]]; [done | by apply insert_subseteq]. }
  split; [done|]. split; [|split; [done|]].
  - destruct (h1 !! l) as [m|] eqn:Hl.
    + by eapply lookup_weaken.
    + revert Hedit. unfold edit_fields. unfold_comp. rewrite Hl.
      by intros [= <- <-].
  - destruct r as [new_act|e];
      [by eapply act_edit_returns | by eapply act_edit_raises].
Qed.

Lemma C8_fetched_turn_not_mutated_witness :
  ∃ r h2,
    edit_fields teacher_name 1%positive (<[1%positive := example_turn]> ∅)
    = (r, h2) ∧
    h2 !! 1%positive
    = (<[1%positive := example_turn]> ∅ : store) !! 1%positive ∧
    <[1%positive := example_turn]> ∅ ⊆ h2 ∧
    act teacher_name (source_of example_turn, ∅)
    = match r with
      | Ret _ => process_action 1%positive (source_of example_turn, h2)
      | Raise e => (Raise e, (source_of example_turn, h2))
      end.
Proof.
  apply (C8_fetched_turn_not_mutated teacher_name (source_of example_turn)
           (source_of example_turn) ∅ (<[1%positive := example_turn]> ∅)
           1%positive).
  reflexivity.
Defined.

(** ** The path helpers and the Labeled* constructors *)

Section PathProperties.
Context {D : Type} `{StyleGenBuild D}.
Variables (opt : loc) (d d' : D) (h h' : store) (o : pydict).
Variables (datatype : string) (datapath : value) (folder : string).
Hypothesis Hopt : h' !! opt = Some o.
Hypothesis Hdatatype : o !! "datatype" = Some (VStr datatype).
Hypothesis Hdatapath : o !! "datapath" = Some datapath.
Hypothesis Hfolder : get_style_labeled_data_folder datapath = Ret folder.

Lemma get_style_labeled_data_path_after_build dt rest base_task r :
  split colon datatype = dt :: rest →
  build_style_labeled_datasets opt (d, h) = (r, (d', h')) →
  get_style_labeled_data_path opt base_task (d, h)
  = (match r with
     | Ret _ => Ret (os_path_join folder [base_task; dt +:+ ".txt"])
     | Raise e => Raise e
     end, (d', h')).
Proof.
  intros Hsplit Hbuild.
  unfold get_style_labeled_data_path. unfold bind at 1. rewrite Hbuild.
  destruct r as [[]|e]; [|done].
  unfold_comp. unfold on_store. crunch. done.
Qed.

Lemma set_datafile_after_build dt rest t :
  split colon datatype = dt :: rest →
  build_style_labeled_datasets opt (d, h) = (Ret tt, (d', h')) →
  set_datafile t opt (d, h)
  = (Ret tt,
     (d', <[opt := <[datafile_key :=
             VStr (os_path_join folder [base_task_of t; dt +:+ ".txt"])]> o]> h')).
Proof.
  intros Hsplit Hbuild. unfold set_datafile. unfold bind.
  rewrite (get_style_labeled_data_path_after_build dt rest _ _ Hsplit Hbuild).
  unfold on_store, dict_set. by rewrite Hopt.
Qed.

End PathProperties.

Example labeled_data_path_sample :
  (get_style_labeled_data_path 1%positive
     (base_task_of LabeledEDPersonaTopicifierTeacher)
     (∅ : disk, <[1%positive := example_opt]> ∅)).1
  = Ret "/data/style_gen/labeled_datasets/blended_skill_talk:EDPersonaTopicifierTeacher/train.txt".
Proof. vm_compute. reflexivity. Qed.

(** C7: [get_style_labeled_data_path] runs the builder first; when the
    builder fails so does the lookup of the path, and otherwise the result is
    the join of the labeled-data folder for [opt['datapath']], the base task
    and the file named by what precedes the first colon of [opt['datatype']]
    followed by [.txt]. Every [Labeled*] constructor hands the generic reader
    an option table whose data file is that path for its own base task. *)
Theorem C7_style_labeled_data_path {D} `{StyleGenBuild D} {Shared Teacher : Type}
    (reader : loc → option Shared → comp (D * store) Teacher)
    (opt : loc) (d d' : D) (h h' : store) (o : pydict)
    (datatype : string) (datapath : value) (folder : string) r :
  build_style_labeled_datasets opt (d, h) = (r, (d', h')) →
  h' !! opt = Some o →
  o !! "datatype" = Some (VStr datatype) → o !! "datapath" = Some datapath →
  get_style_labeled_data_folder datapath = Ret folder →
  ∃ dt, is_before_first colon datatype dt ∧
    (∀ base_task,
       get_style_labeled_data_path opt base_task (d, h)
       = (match r with
          | Ret _ => Ret (os_path_join folder [base_task; dt +:+ ".txt"])
          | Raise e => Raise e
          end, (d', h'))) ∧
    (∀ t shared,
       labeled_teacher_init reader t opt shared (d, h)
       = match r with
         | Ret _ =>
             reader opt shared
               (d', <[opt := <[datafile_key :=
                       VStr (os_path_join folder [base_task_of t; dt +:+ ".txt"])]> o]> h')
         | Raise e => (Raise e, (d', h'))
         end).
Proof.
  intros Hbuild Hopt Hdatatype Hdatapath Hfolder.
  destruct (split_first colon datatype) as (dt & rest & Hsplit & Hdt).
  exists dt. split; [done|]. split.
  - intros base_task.
    by eapply get_style_labeled_data_path_after_build.
  - intros t shared. unfold labeled_teacher_init. unfold bind at 1.
    destruct r as [[]|e].
    + by erewrite set_datafile_after_build.
    + unfold set_datafile. unfold bind at 1.
      by rewrite (get_style_labeled_data_path_after_build opt d d' h h' o
                    datatype datapath folder Hopt Hdatatype Hdatapath Hfolder
                    dt rest (base_task_of t) _ Hsplit Hbuild).
Qed.

Lemma C7_style_labeled_data_path_witness :
  ∃ dt, is_before_first colon "train:stream" dt ∧
    (∀ base_task,
       get_style_labeled_data_path 1%positive base_task
         (∅ : disk, <[1%positive := example_opt]> ∅)
       = (Ret (os_path_join example_folder [base_task; dt +:+ ".txt"]),
          ({[ "labeled_datasets" ]} ∪ ∅, <[1%positive := example_opt]> ∅))) ∧
    (∀ t shared,
       labeled_teacher_init reader_init t 1%positive shared
         (∅ : disk, <[1%positive := example_opt]> ∅)
       = reader_init 1%positive shared
           ({[ "labeled_datasets" ]} ∪ ∅,
            <[1%positive := <[datafile_key :=
               VStr (os_path_join example_folder
                       [base_task_of t; dt +:+ ".txt"])]> example_opt]>
              (<[1%positive := example_opt]> ∅))).
Proof.
  apply (C7_style_labeled_data_path reader_init 1%positive ∅
           ({[ "labeled_datasets" ]} ∪ ∅)
           (<[1%positive := example_opt]> ∅) (<[1%positive := example_opt]> ∅)
           example_opt "train:stream" (VStr "/data") example_folder (Ret tt));
    reflexivity.
Defined.

(** C9: each [Labeled*] constructor, before it delegates to the generic
    reader, stores the style-labeled data path of its base task in the
    caller's option table under ['parlaidialogteacher_datafile']; every other
    key of the table, and every other object, is as the builder left it. *)
Theorem C9_constructor_sets_datafile {D} `{StyleGenBuild D} {Shared Teacher : Type}
    (reader : loc → option Shared → comp (D * store) Teacher)
    (t : labeled_teacher) (shared : option Shared)
    (opt : loc) (d d' : D) (h h' : store) (o : pydict)
    (datatype : string) (datapath : value) (folder : string) :
  build_style_labeled_datasets opt (d, h) = (Ret tt, (d', h')) →
  h' !! opt = Some o →
  o !! "datatype" = Some (VStr datatype) → o !! "datapath" = Some datapath →
  get_style_labeled_data_folder datapath = Ret folder →
  ∃ path o' h'',
    get_style_labeled_data_path opt (base_task_of t) (d, h)
    = (Ret path, (d', h')) ∧
    set_datafile t opt (d, h) = (Ret tt, (d', h'')) ∧
    labeled_teacher_init reader t opt shared (d, h)
    = reader opt shared (d', h'') ∧
    h'' !! opt = Some o' ∧
    o' !! datafile_key = Some (VStr path) ∧
    (∀ key, key ≠ datafile_key → o' !! key = o !! key) ∧
    (∀ l, l ≠ opt → h'' !! l = h' !! l).
Proof.
  intros Hbuild Hopt Hdatatype Hdatapath Hfolder.
  destruct (split_first colon datatype) as (dt & rest & Hsplit & _).
  pose proof (get_style_labeled_data_path_after_build opt d d' h h' o datatype
                datapath folder Hopt Hdatatype Hdatapath Hfolder
                dt rest (base_task_of t) (Ret tt) Hsplit Hbuild) as Hpath.
  pose proof (set_datafile_after_build opt d d' h h' o datatype
                datapath folder Hopt Hdatatype Hdatapath Hfolder
                dt rest t Hsplit Hbuild) as Hset.
  set (path := os_path_join folder [base_task_of t; dt +:+ ".txt"]) in *.
  exists path, (<[datafile_key := VStr path]> o),
    (<[opt := <[datafile_key := VStr path]> o]> h').
  split; [done|]. split; [done|]. split.
  { unfold labeled_teacher_init. unfold bind. by rewrite Hset. }
  split; [apply lookup_insert_eq|]. split; [apply lookup_insert_eq|].
  split; [intros key Hkey | intros l Hl]; by rewrite lookup_insert_ne.
Qed.

Lemma C9_constructor_sets_datafile_witness :
  ∃ path o' h'',
    get_style_labeled_data_path 1%positive
      (base_task_of LabeledEDPersonaTopicifierTeacher)
      (∅ : disk, <[1%positive := example_opt]> ∅)
    = (Ret path, ({[ "labeled_datasets" ]} ∪ ∅, <[1%positive := example_opt]> ∅)) ∧
    set_datafile LabeledEDPersonaTopicifierTeacher 1%positive
      (∅ : disk, <[1%positive := example_opt]> ∅)
    = (Ret tt, ({[ "labeled_datasets" ]} ∪ ∅, h'')) ∧
    labeled_teacher_init reader_init LabeledEDPersonaTopicifierTeacher
      1%positive None (∅ : disk, <[1%positive := example_opt]> ∅)
    = reader_init 1%positive None ({[ "labeled_datasets" ]} ∪ ∅, h'') ∧
    h'' !! 1%positive = Some o' ∧
    o' !! datafile_key = Some (VStr path) ∧
    (∀ key, key ≠ datafile_key → o' !! key = example_opt !! key) ∧
    (∀ l, l ≠ 1%positive →
          h'' !! l = (<[1%positive := example_opt]> ∅ : store) !! l).
Proof.
  apply (C9_constructor_sets_datafile reader_init
           LabeledEDPersonaTopicifierTeacher None 1%positive ∅
           ({[ "labeled_datasets" ]} ∪ ∅)
           (<[1%positive := example_opt]> ∅) (<[1%positive := example_opt]> ∅)
           example_opt "train:stream" (VStr "/data") example_folder);
    reflexivity.
Defined.

(** ** Further properties: strings and paths *)

Lemma count_char_app c a b :
  count_char c (a +:+ b) = count_char c a + count_char c b.
Proof.
  induction a as [|x a IH]; [done|].
  change (count_char c (String x (a +:+ b))
          = count_char c (String x a) + count_char c b).
  simpl. rewrite IH. lia.
Qed.

Lemma count_char_absent c s : ¬ occurs c s → count_char c s = 0.
Proof.
  induction s as [|a s IH]; [done|]. rewrite occurs_cons. intros Hno. simpl.
  destruct (Ascii.eqb_spec a c) as [->|Hne]; [tauto|]. apply IH. tauto.
Qed.

Lemma split_before_first sep s pre :
  is_before_first sep s pre → ∃ rest, split sep s = pre :: rest.
Proof.
  intros [Hno Hs]. revert s Hs.
  induction pre as [|a pre IH]; intros s Hs.
  - destruct Hs as [->|[rest ->]]; [by exists []|].
    exists (split sep rest). simpl. by rewrite Ascii.eqb_refl.
  - rewrite occurs_cons in Hno.
    destruct (IH (λ Ho, Hno (or_intror Ho)) pre (or_introl eq_refl)) as [r0 E0].
    assert (Ascii.eqb a sep = false) as Hne.
    { apply Ascii.eqb_neq. intros ->. tauto. }
    destruct Hs as [->|[rest ->]].
    + exists r0. simpl. by rewrite Hne, E0.
    + destruct (IH (λ Ho, Hno (or_intror Ho)) (pre +:+ String sep rest))
        as [r1 E1]; [right; by exists rest|].
      exists r1.
      change (split sep (String a (pre +:+ String sep rest)) = String a pre :: r1).
      simpl. by rewrite Hne, E1.
Qed.

Lemma ends_with_sep_app a b : b ≠ "" → ends_with_sep (a +:+ b) = ends_with_sep b.
Proof.
  intros Hb. induction a as [|x a IH]; [done|].
  change (ends_with_sep (String x (a +:+ b)) = ends_with_sep b).
  simpl. destruct (a +:+ b) as [|y s] eqn:E; [by destruct a, b | exact IH].
Qed.

Lemma str_eqb_app_nonempty a b : b ≠ "" → String.eqb (a +:+ b) "" = false.
Proof. intros Hb. destruct a, b; done. Qed.

Lemma prefix_slash_file s pre rest :
  split colon s = pre :: rest →
  String.prefix "/" (pre +:+ ".txt") = String.prefix "/" s.
Proof.
  destruct s as [|c s]; simpl.
  - by intros [= <- <-].
  - destruct (Ascii.eqb_spec c colon) as [->|Hne].
    + by intros [= <- <-].
    + destruct (split colon s) as [|x xs] eqn:E;
        [by destruct (split_not_nil colon s)|].
      intros [= <- <-].
      change (String.prefix "/" (String c (x +:+ ".txt"))
                = match ascii_dec "/" c with
                  | left _ => String.prefix "" s
                  | right _ => false
                end).
      simpl. destruct (ascii_dec "/" c); by rewrite ?str_prefix_nil.
Qed.

Lemma split_clean sep s : ¬ occurs sep s → split sep s = [s].
Proof.
  induction s as [|c s IH]; [done|]. rewrite occurs_cons. intros Hno. simpl.
  destruct (Ascii.eqb_spec c sep) as [->|Hne]; [tauto|].
  rewrite IH; [done | tauto].
Qed.

Lemma split_app_sep sep pre rest :
  split sep (pre +:+ String sep rest)
  = (split sep pre ++ split sep rest)%list.
Proof.
  induction pre as [|c pre IH].
  - simpl. by rewrite Ascii.eqb_refl.
  - change (split sep (String c (pre +:+ String sep rest))
            = (split sep (String c pre) ++ split sep rest)%list).
    simpl. rewrite IH. destruct (Ascii.eqb c sep); [done|].
    destruct (split sep pre) as [|x xs] eqn:E;
      [by destruct (split_not_nil sep pre) | done].
Qed.

Lemma split_after_last sep s suf :
  is_after_last sep s suf → last (split sep s) = Some suf.
Proof.
  intros [Hno [->|[pre ->]]].
  - by rewrite split_clean.
  - rewrite split_app_sep, (split_clean sep suf) by done. apply last_snoc.
Qed.

Lemma os_path_join_relative folder b f :
  String.prefix "/" b = false → b ≠ "" → ends_with_sep b = false →
  String.prefix "/" f = false →
  os_path_join folder [b; f]
  = folder +:+ sep_after folder +:+ b +:+ "/" +:+ f.
Proof.
  intros Hb Hne Hend Hf. unfold os_path_join. rewrite Hb.
  assert ((if String.eqb folder "" || ends_with_sep folder
           then folder +:+ b else folder +:+ "/" +:+ b)
          = folder +:+ sep_after folder +:+ b) as ->.
  { unfold sep_after. by destruct (String.eqb folder "" || ends_with_sep folder). }
  assert (sep_after folder +:+ b ≠ "") as Hne'.
  { unfold sep_after.
    destruct (String.eqb folder "" || ends_with_sep folder); [done|].
    by destruct b. }
  assert (ends_with_sep (sep_after folder +:+ b) = false) as Hend'.
  { by rewrite ends_with_sep_app. }
  rewrite Hf, str_eqb_app_nonempty, ends_with_sep_app, Hend' by done.
  simpl. by rewrite !str_app_assoc.
Qed.

Lemma os_path_join_absolute_last a b f :
  String.prefix "/" f = true → os_path_join a [b; f] = f.
Proof. intros Hf. unfold os_path_join. by rewrite Hf. Qed.

Lemma base_task_relative t :
  String.prefix "/" (base_task_of t) = false ∧ base_task_of t ≠ "" ∧
  ends_with_sep (base_task_of t) = false.
Proof. by destruct t. Qed.

Lemma base_task_file_inj t1 t2 f :
  base_task_of t1 +:+ "/" +:+ f = base_task_of t2 +:+ "/" +:+ f → t1 = t2.
Proof. destruct t1, t2; intros E; try done; lazy in E; discriminate. Qed.

(** ** Further properties: the path helpers *)

Lemma labeled_teacher_init_path_raises {D} `{StyleGenBuild D}
    {Shared Teacher : Type}
    (reader : loc → option Shared → comp (D * store) Teacher)
    t opt shared s e s' :
  get_style_labeled_data_path opt (base_task_of t) s = (Raise e, s') →
  labeled_teacher_init reader t opt shared s = (Raise e, s').
Proof.
  intros Hpath. unfold labeled_teacher_init, set_datafile.
  unfold bind at 1 2. by rewrite Hpath.
Qed.

Section FurtherPaths.
Context {D : Type} `{StyleGenBuild D} {Shared Teacher : Type}.
Variable reader : loc → option Shared → comp (D * store) Teacher.
Variables (opt : loc) (d d' : D) (h h' : store) (o : pydict).
Hypothesis Hbuild :
  build_style_labeled_datasets opt (d, h) = (Ret tt, (d', h')).
Hypothesis Hopt : h' !! opt = Some o.

(** Without ['datatype'] in the option table the path helper raises
    [KeyError] once the builder has run, and so does every [Labeled*]
    constructor: the table is not written and the reader is not called. *)
Theorem labeled_data_path_missing_datatype :
  o !! "datatype" = None →
  (∀ base_task,
     get_style_labeled_data_path opt base_task (d, h)
     = (Raise (KeyError "datatype"), (d', h'))) ∧
  (∀ t shared,
     labeled_teacher_init reader t opt shared (d, h)
     = (Raise (KeyError "datatype"), (d', h'))).
Proof.
  intros Hdatatype.
  assert (∀ base_task,
            get_style_labeled_data_path opt base_task (d, h)
            = (Raise (KeyError "datatype"), (d', h'))) as Hpath.
  { intros base_task. unfold get_style_labeled_data_path. unfold bind at 1.
    rewrite Hbuild. unfold_comp. unfold on_store. by crunch. }
  split; [done|]. intros t shared. by apply labeled_teacher_init_path_raises.
Qed.

(** A ['datatype'] that is not a string has no [split]: the path helper and
    the constructors raise [AttributeError]. *)
Theorem labeled_data_path_datatype_not_str v :
  o !! "datatype" = Some v → (∀ s, v ≠ VStr s) →
  (∀ base_task,
     get_style_labeled_data_path opt base_task (d, h)
     = (Raise AttributeError, (d', h'))) ∧
  (∀ t shared,
     labeled_teacher_init reader t opt shared (d, h)
     = (Raise AttributeError, (d', h'))).
Proof.
  intros Hdatatype Hv.
  assert (py_split colon v = Raise AttributeError) as Hsplit.
  { destruct v; try done. by destruct (Hv s). }
  assert (∀ base_task,
            get_style_labeled_data_path opt base_task (d, h)
            = (Raise AttributeError, (d', h'))) as Hpath.
  { intros base_task. unfold get_style_labeled_data_path. unfold bind at 1.
    rewrite Hbuild. unfold_comp. unfold on_store. by crunch. }
  split; [done|]. intros t shared. by apply labeled_teacher_init_path_raises.
Qed.

(** Without ['datapath'] the failure is a [KeyError] for that key, raised
    after ['datatype'] has been read and split. *)
Theorem labeled_data_path_missing_datapath datatype :
  o !! "datatype" = Some (VStr datatype) → o !! "datapath" = None →
  (∀ base_task,
     get_style_labeled_data_path opt base_task (d, h)
     = (Raise (KeyError "datapath"), (d', h'))) ∧
  (∀ t shared,
     labeled_teacher_init reader t opt shared (d, h)
     = (Raise (KeyError "datapath"), (d', h'))).
Proof.
  intros Hdatatype Hdatapath.
  destruct (split_first colon datatype) as (dt & rest & Hsplit & _).
  assert (∀ base_task,
            get_style_labeled_data_path opt base_task (d, h)
            = (Raise (KeyError "datapath"), (d', h'))) as Hpath.
  { intros base_task. unfold get_style_labeled_data_path. unfold bind at 1.
    rewrite Hbuild. unfold_comp. unfold on_store. by crunch. }
  split; [done|]. intros t shared. by apply labeled_teacher_init_path_raises.
Qed.

Variables (datatype : string) (datapath : value) (folder : string).
Hypothesis Hdatatype : o !! "datatype" = Some (VStr datatype).
Hypothesis Hdatapath : o !! "datapath" = Some datapath.
Hypothesis Hfolder : get_style_labeled_data_folder datapath = Ret folder.

Lemma data_path_with_prefix dt base_task :
  is_before_first colon datatype dt →
  get_style_labeled_data_path opt base_task (d, h)
  = (Ret (os_path_join folder [base_task; dt +:+ ".txt"]), (d', h')).
Proof.
  intros Hdt. destruct (split_before_first colon datatype dt Hdt) as [rest Hsplit].
  exact (get_style_labeled_data_path_after_build opt d d' h h' o datatype
           datapath folder Hopt Hdatatype Hdatapath Hfolder
           dt rest base_task (Ret tt) Hsplit Hbuild).
Qed.

Lemma teacher_file_closed_form t dt :
  is_before_first colon datatype dt →
  String.prefix "/" datatype = false →
  get_style_labeled_data_path opt (base_task_of t) (d, h)
  = (Ret (folder +:+ sep_after folder +:+ base_task_of t +:+ "/"
            +:+ dt +:+ ".txt"), (d', h')).
Proof.
  intros Hdt Hrel. rewrite (data_path_with_prefix dt _ Hdt).
  destruct (split_before_first colon datatype dt Hdt) as [rest Hsplit].
  destruct (base_task_relative t) as (Hb1 & Hb2 & Hb3).
  rewrite os_path_join_relative; [done..|].
  by rewrite (prefix_slash_file datatype dt rest Hsplit).
Qed.

(** Whatever follows the first colon of ['datatype'] has no influence: for
    any way of writing ['datatype'] as a colon-free [dt], or as such a [dt]
    followed by a colon and more, the file is [dt] with [.txt]. *)
Theorem labeled_data_path_of_prefix dt base_task :
  is_before_first colon datatype dt →
  get_style_labeled_data_path opt base_task (d, h)
  = (Ret (os_path_join folder [base_task; dt +:+ ".txt"]), (d', h')).
Proof. apply data_path_with_prefix. Qed.

(** When ['datatype'] does not start with a slash, the data file of a
    [Labeled*] teacher is, character for character, the folder, a slash
    unless the folder is empty or ends with one, the base task, a slash and
    the file name. *)
Theorem labeled_teacher_file_location t dt :
  is_before_first colon datatype dt →
  String.prefix "/" datatype = false →
  get_style_labeled_data_path opt (base_task_of t) (d, h)
  = (Ret (folder +:+ sep_after folder +:+ base_task_of t +:+ "/"
            +:+ dt +:+ ".txt"), (d', h')).
Proof. apply teacher_file_closed_form. Qed.

(** Under the same condition two different [Labeled*] teachers never read
    the same file. *)
Theorem labeled_teachers_read_distinct_files t1 t2 path :
  String.prefix "/" datatype = false →
  get_style_labeled_data_path opt (base_task_of t1) (d, h) = (Ret path, (d', h')) →
  get_style_labeled_data_path opt (base_task_of t2) (d, h) = (Ret path, (d', h')) →
  t1 = t2.
Proof.
  intros Hrel.
  destruct (split_first colon datatype) as (dt & rest & Hsplit & Hdt).
  rewrite !(teacher_file_closed_form _ dt Hdt Hrel).
  intros [= <-] [= E].
  apply String.app_inj, String.app_inj in E.
  symmetry. by eapply base_task_file_inj.
Qed.

(** A ['datatype'] that starts with a slash takes over the whole path: the
    folder and the base task are dropped, and all [Labeled*] teachers are
    given the same file. *)
Theorem labeled_data_path_absolute_datatype dt base_task :
  is_before_first colon datatype dt →
  String.prefix "/" datatype = true →
  get_style_labeled_data_path opt base_task (d, h)
  = (Ret (dt +:+ ".txt"), (d', h')).
Proof.
  intros Hdt Habs. rewrite (data_path_with_prefix dt _ Hdt).
  destruct (split_before_first colon datatype dt Hdt) as [rest Hsplit].
  rewrite os_path_join_absolute_last; [done|].
  by rewrite (prefix_slash_file datatype dt rest Hsplit).
Qed.

(** Running a constructor's first statement again on the table it has
    written changes nothing, as long as the builder leaves the store alone
    the second time: the same path is stored under the same key. *)
Theorem set_datafile_twice t :
  ∃ h2,
    set_datafile t opt (d, h) = (Ret tt, (d', h2)) ∧
    ∀ d'',
      build_style_labeled_datasets opt (d', h2) = (Ret tt, (d'', h2)) →
      set_datafile t opt (d', h2) = (Ret tt, (d'', h2)).
Proof.
  destruct (split_first colon datatype) as (dt & rest & Hsplit & _).
  set (path := os_path_join folder [base_task_of t; dt +:+ ".txt"]).
  exists (<[opt := <[datafile_key := VStr path]> o]> h'). split.
  - by eapply set_datafile_after_build.
  - intros d'' Hbuild2.
    erewrite (set_datafile_after_build opt d' d'' _ _
                (<[datafile_key := VStr path]> o) datatype datapath folder);
      [| apply lookup_insert_eq | by rewrite lookup_insert_ne
       | by rewrite lookup_insert_ne | done | done | done].
    fold path. by rewrite !insert_insert_eq.
Qed.

End FurtherPaths.

Section PersonalityList.
Context {D : Type} `{StyleGenBuild D}.
Variables (opt : loc) (d d' : D) (h h' : store) (o : pydict).
Hypothesis Hopt : h' !! opt = Some o.

(** [get_personality_list_path] runs its builder first and hands on the
    builder's failure; otherwise, for a string ['datapath'], the result is the
    join of that path, the task folder name and [personality_list.txt]. *)
Theorem personality_list_path_after_build datapath r :
  build_personality_list opt (d, h) = (r, (d', h')) →
  o !! "datapath" = Some (VStr datapath) →
  get_personality_list_path opt (d, h)
  = (match r with
     | Ret _ =>
         Ret (os_path_join datapath [TASK_FOLDER_NAME; "personality_list.txt"])
     | Raise e => Raise e
     end, (d', h')).
Proof.
  intros Hbuild Hdatapath.
  unfold get_personality_list_path. unfold bind at 1. rewrite Hbuild.
  destruct r as [[]|e]; [|done].
  unfold_comp. unfold on_store. by crunch.
Qed.

(** Without ['datapath'] the personality list is built and the lookup then
    raises [KeyError]. *)
Theorem personality_list_path_missing_datapath :
  build_personality_list opt (d, h) = (Ret tt, (d', h')) →
  o !! "datapath" = None →
  get_personality_list_path opt (d, h) = (Raise (KeyError "datapath"), (d', h')).
Proof.
  intros Hbuild Hdatapath.
  unfold get_personality_list_path. unfold bind at 1. rewrite Hbuild.
  unfold_comp. unfold on_store. by crunch.
Qed.

(** A ['datapath'] that is not a string cannot be joined: [TypeError]. *)
Theorem personality_list_path_datapath_not_str v :
  build_personality_list opt (d, h) = (Ret tt, (d', h')) →
  o !! "datapath" = Some v → (∀ s, v ≠ VStr s) →
  get_personality_list_path opt (d, h) = (Raise TypeError, (d', h')).
Proof.
  intros Hbuild Hdatapath Hv.
  assert (∀ p, py_path_join v p = Raise TypeError) as Hjoin.
  { intros p. destruct v; try done. by destruct (Hv s). }
  unfold get_personality_list_path. unfold bind at 1. rewrite Hbuild.
  unfold_comp. unfold on_store. crunch. by rewrite Hjoin.
Qed.

End PersonalityList.

(** ** Further properties: the field-editing step of [act] *)

Section FurtherEdit.
Variables (tn : string) (h : store) (l : loc) (m : pydict).
Variables (labels : value) (L txt : string) (P : value).
Hypothesis Hl : h !! l = Some m.
Hypothesis Hlabels : m !! "labels" = Some labels.
Hypothesis Hsole : sole_label labels (VStr L).
Hypothesis Hclean : ¬ occurs nl L.
Hypothesis Htext : m !! "text" = Some (VStr txt).
Hypothesis Hpers : m !! "personality" = Some P.

(** The text that the editing step stores in [new_act] contains exactly
    one newline, however many the fetched text has. *)
Theorem edited_text_has_one_newline :
  ∃ new_text,
    edited_field "text" (edit_fields tn l h) = Some (VStr new_text) ∧
    count_char nl new_text = 1.
Proof.
  destruct (edit_fields_labeled tn h l m labels L txt P)
    as (prev & [Hprev _] & ->); [done..|].
  exists ((prev +:+ NL) +:+ L). split.
  - simpl. rewrite lookup_insert_eq. simpl. unfold edited_turn.
    by rewrite lookup_insert_ne, lookup_insert_ne, lookup_insert_eq.
  - rewrite !count_char_app, (count_char_absent nl prev), (count_char_absent nl L)
      by done.
    reflexivity.
Qed.

(** The editing step writes ['text'], ['labels'] and ['episode_done'] only:
    every other field of [new_act] is the field of the fetched turn. *)
Theorem edited_copy_keeps_other_fields key :
  key ≠ "text" → key ≠ "labels" → key ≠ "episode_done" →
  edited_field key (edit_fields tn l h) = m !! key ∧
  edited_field "labels" (edit_fields tn l h) = Some (VList [P]) ∧
  edited_field "episode_done" (edit_fields tn l h) = Some (VBool true).
Proof.
  intros Hk1 Hk2 Hk3.
  destruct (edit_fields_labeled tn h l m labels L txt P)
    as (prev & _ & ->); [done..|].
  simpl. rewrite lookup_insert_eq. simpl. unfold edited_turn.
  split; [|split].
  - by rewrite !lookup_insert_ne.
  - by rewrite lookup_insert_ne, lookup_insert_eq.
  - by rewrite lookup_insert_eq.
Qed.

(** Only the last line of the fetched text reaches the copy: for any way of
    writing the text as a newline-free [prev], or as anything, a newline and
    such a [prev], the stored text is [prev], a newline and the label. *)
Theorem edited_text_of_last_line prev :
  is_after_last nl txt prev →
  edited_field "text" (edit_fields tn l h)
  = Some (VStr ((prev +:+ NL) +:+ L)).
Proof.
  intros Hprev. apply split_after_last in Hprev.
  destruct (edit_fields_labeled tn h l m labels L txt P)
    as (prev' & Hprev' & ->); [done..|].
  apply split_after_last in Hprev'. rewrite Hprev in Hprev'.
  injection Hprev' as <-.
  simpl. rewrite lookup_insert_eq. simpl. unfold edited_turn.
  by rewrite lookup_insert_ne, lookup_insert_ne, lookup_insert_eq.
Qed.

End FurtherEdit.

Lemma edit_fields_no_personality tn (h : store) l m labels L txt :
  h !! l = Some m →
  m !! "labels" = Some labels → sole_label labels (VStr L) → ¬ occurs nl L →
  m !! "text" = Some (VStr txt) → m !! "personality" = None →
  ∃ h2, edit_fields tn l h = (Raise (KeyError "personality"), h2).
Proof.
  intros Hl Hlabels Hsole Hclean Htext Hpers.
  destruct (split_last nl txt) as (prev & Hlast & _).
  apply str_contains_char_false in Hclean. fold NL in Hclean.
  pose proof (py_in_true _ _ _ Hlabels).
  eexists. destruct Hsole as [-> | ->]; by run_edit Hl.
Qed.

Lemma edit_fields_text_not_str tn (h : store) l m labels L v :
  h !! l = Some m →
  m !! "labels" = Some labels → sole_label labels (VStr L) → ¬ occurs nl L →
  m !! "text" = Some v → (∀ s, v ≠ VStr s) →
  edit_fields tn l h = (Raise AttributeError, <[fresh (dom h) := m]> h).
Proof.
  intros Hl Hlabels Hsole Hclean Htext Hv.
  assert (py_split nl v = Raise AttributeError) as Hsplit.
  { destruct v; try done. by destruct (Hv s). }
  apply str_contains_char_false in Hclean. fold NL in Hclean.
  pose proof (py_in_true _ _ _ Hlabels).
  destruct Hsole as [-> | ->]; by run_edit Hl.
Qed.

(** [label] is [None], a boolean or an integer. *)
Lemma edit_fields_label_not_iterable tn (h : store) l m labels label :
  h !! l = Some m →
  m !! "labels" = Some labels → sole_label labels label →
  py_contains NL label = Raise TypeError →
  edit_fields tn l h = (Raise TypeError, <[fresh (dom h) := m]> h).
Proof.
  intros Hl Hlabels Hsole Hlabel.
  pose proof (py_in_true _ _ _ Hlabels).
  destruct Hsole as [-> | ->]; by run_edit Hl.
Qed.

Lemma edit_fields_keeps_fetched tn l (h : store) :
  (edit_fields tn l h).2 !! l = h !! l.
Proof.
  pose proof (edit_fields_store tn l h) as [-> | [d Hd]]; [done|].
  destruct (h !! l) as [m|] eqn:Hl.
  - rewrite Hd, lookup_insert_ne; [done|].
    pose proof (fresh_loc_unused h). congruence.
  - unfold edit_fields. unfold_comp. by rewrite Hl.
Qed.

(** ** Further properties: [act] *)

(** A labeled turn without ['personality'] makes [act] raise [KeyError] for
    that key, after the text of the copy has been rewritten; the fetched turn
    is as it was. *)
Theorem act_missing_personality {T} `{FixedDialogTeacher T} tn
    (task task1 : T) (h h1 : store) l m labels L txt :
  get_orig_action (task, h) = (Ret l, (task1, h1)) →
  h1 !! l = Some m →
  m !! "labels" = Some labels → sole_label labels (VStr L) → ¬ occurs nl L →
  m !! "text" = Some (VStr txt) → m !! "personality" = None →
  ∃ h2, act tn (task, h) = (Raise (KeyError "personality"), (task1, h2)) ∧
        h2 !! l = Some m.
Proof.
  intros Hfetch Hl Hlabels Hsole Hclean Htext Hpers.
  destruct (edit_fields_no_personality tn h1 l m labels L txt) as [h2 Hedit];
    [done..|].
  exists h2. split; [by eapply act_edit_raises|].
  pose proof (edit_fields_keeps_fetched tn l h1) as Hsame.
  rewrite Hedit in Hsame. simpl in Hsame. by rewrite Hsame.
Qed.

Lemma act_missing_personality_witness :
  ∃ h2, act teacher_name (source_of no_personality_turn, ∅)
        = (Raise (KeyError "personality"), (source_of no_personality_turn, h2)) ∧
        h2 !! 1%positive = Some no_personality_turn.
Proof.
  apply (act_missing_personality teacher_name _ _ ∅
           (<[1%positive := no_personality_turn]> ∅) 1%positive
           no_personality_turn (VList [VStr "good thanks"]) "good thanks"
           ("hi" +:+ NL +:+ "how are you"));
    [reflexivity | reflexivity | reflexivity | by left
    | by apply str_contains_char_false | reflexivity | reflexivity].
Defined.

(** A labeled turn whose ['text'] is not a string has no [split]: [act]
    raises [AttributeError] and returns no turn. *)
Theorem act_text_not_str {T} `{FixedDialogTeacher T} tn
    (task task1 : T) (h h1 : store) l m labels L v :
  get_orig_action (task, h) = (Ret l, (task1, h1)) →
  h1 !! l = Some m →
  m !! "labels" = Some labels → sole_label labels (VStr L) → ¬ occurs nl L →
  m !! "text" = Some v → (∀ s, v ≠ VStr s) →
  ∃ h2, act tn (task, h) = (Raise AttributeError, (task1, h2)).
Proof.
  intros Hfetch Hl Hlabels Hsole Hclean Htext Hv. eexists.
  eapply act_edit_raises; [done|]. by eapply edit_fields_text_not_str.
Qed.

Lemma act_text_not_str_witness :
  ∃ h2, act teacher_name (source_of none_text_turn, ∅)
        = (Raise AttributeError, (source_of none_text_turn, h2)).
Proof.
  apply (act_text_not_str teacher_name _ _ ∅
           (<[1%positive := none_text_turn]> ∅) 1%positive
           none_text_turn (VList [VStr "good thanks"]) "good thanks" VNone);
    [reflexivity | reflexivity | reflexivity | by left
    | by apply str_contains_char_false | reflexivity | done].
Defined.

(** A single label that is [None], a boolean or an integer cannot be searched
    for a newline: [act] raises [TypeError] and returns no turn. *)
Theorem act_label_not_iterable {T} `{FixedDialogTeacher T} tn
    (task task1 : T) (h h1 : store) l m labels label :
  get_orig_action (task, h) = (Ret l, (task1, h1)) →
  h1 !! l = Some m →
  m !! "labels" = Some labels → sole_label labels label →
  label = VNone ∨ (∃ b, label = VBool b) ∨ (∃ z, label = VInt z) →
  ∃ h2, act tn (task, h) = (Raise TypeError, (task1, h2)).
Proof.
  intros Hfetch Hl Hlabels Hsole Hlabel. eexists.
  eapply act_edit_raises; [done|].
  eapply edit_fields_label_not_iterable; [done..|].
  by destruct Hlabel as [-> | [[b ->] | [z ->]]].
Qed.

Lemma act_label_not_iterable_witness :
  ∃ h2, act teacher_name (source_of int_label_turn, ∅)
        = (Raise TypeError, (source_of int_label_turn, h2)).
Proof.
  apply (act_label_not_iterable teacher_name _ _ ∅
           (<[1%positive := int_label_turn]> ∅) 1%positive
           int_label_turn (VList [VInt 5]) (VInt 5));
    [reflexivity | reflexivity | reflexivity | by left
    | right; right; by exists 5%Z].
Defined.

Lemma act_unlabeled_turn_without_flag_witness :
  ∃ h2, act teacher_name (source_of empty_turn, ∅)
        = (Raise (KeyError "episode_done"), (source_of empty_turn, h2)).
Proof.
  apply (act_unlabeled_turn_without_flag teacher_name _ _ ∅
           (<[1%positive := empty_turn]> ∅) 1%positive empty_turn);
    reflexivity.
Defined.

Lemma act_returns_fetched_turn_witness :
  ∃ prev task2 h2,
    is_after_last nl ("hi" +:+ NL +:+ "how are you") prev ∧
    h2 !! fresh (dom (<[1%positive := example_turn]> ∅ : store))
    = Some (edited_turn example_turn prev "good thanks" (VStr "cheerful")) ∧
    act teacher_name (source_of example_turn, ∅) = (Ret 1%positive, (task2, h2)) ∧
    h2 !! 1%positive = Some example_turn.
Proof.
  apply (act_returns_fetched_turn teacher_name (source_of example_turn)
           (source_of example_turn) ∅ (<[1%positive := example_turn]> ∅)
           1%positive example_turn (VList [VStr "good thanks"]) "good thanks"
           ("hi" +:+ NL +:+ "how are you") (VStr "cheerful"));
    [apply source_passes_through | reflexivity | reflexivity | reflexivity
    | by left | by apply str_contains_char_false | reflexivity | reflexivity].
Defined.

(** ** Further properties: sample runs *)

Lemma edited_text_has_one_newline_witness :
  ∃ new_text,
    edited_field "text"
      (edit_fields teacher_name 1%positive (<[1%positive := example_turn]> ∅))
    = Some (VStr new_text) ∧
    count_char nl new_text = 1.
Proof.
  apply (edited_text_has_one_newline teacher_name
           (<[1%positive := example_turn]> ∅) 1%positive example_turn
           (VList [VStr "good thanks"]) "good thanks"
           ("hi" +:+ NL +:+ "how are you") (VStr "cheerful"));
    [reflexivity | reflexivity | by left | by apply str_contains_char_false
    | reflexivity | reflexivity].
Defined.

Lemma edited_copy_keeps_other_fields_witness :
  edited_field "personality"
    (edit_fields teacher_name 1%positive (<[1%positive := example_turn]> ∅))
  = example_turn !! "personality" ∧
  edited_field "labels"
    (edit_fields teacher_name 1%positive (<[1%positive := example_turn]> ∅))
  = Some (VList [VStr "cheerful"]) ∧
  edited_field "episode_done"
    (edit_fields teacher_name 1%positive (<[1%positive := example_turn]> ∅))
  = Some (VBool true).
Proof.
  apply (edited_copy_keeps_other_fields teacher_name
           (<[1%positive := example_turn]> ∅) 1%positive example_turn
           (VList [VStr "good thanks"]) "good thanks"
           ("hi" +:+ NL +:+ "how are you") (VStr "cheerful"));
    [reflexivity | reflexivity | by left | by apply str_contains_char_false
    | reflexivity | reflexivity | done | done | done].
Defined.

Lemma train_before_colon : is_before_first colon "train:stream" "train".
Proof.
  split; [by apply str_contains_char_false | right; by exists "stream"].
Qed.

Lemma tmp_before_colon : is_before_first colon "/tmp/x:stream" "/tmp/x".
Proof.
  split; [by apply str_contains_char_false | right; by exists "stream"].
Qed.

Lemma labeled_data_path_missing_datatype_witness :
  (∀ base_task,
     get_style_labeled_data_path 1%positive base_task
       (∅ : disk, <[1%positive := opt_without_datatype]> ∅)
     = (Raise (KeyError "datatype"),
        ({[ "labeled_datasets" ]} ∪ ∅, <[1%positive := opt_without_datatype]> ∅))) ∧
  (∀ t shared,
     labeled_teacher_init reader_init t 1%positive shared
       (∅ : disk, <[1%positive := opt_without_datatype]> ∅)
     = (Raise (KeyError "datatype"),
        ({[ "labeled_datasets" ]} ∪ ∅, <[1%positive := opt_without_datatype]> ∅))).
Proof.
  apply (labeled_data_path_missing_datatype reader_init 1%positive ∅
           ({[ "labeled_datasets" ]} ∪ ∅)
           (<[1%positive := opt_without_datatype]> ∅)
           (<[1%positive := opt_without_datatype]> ∅) opt_without_datatype);
    first [reflexivity | apply train_before_colon | apply tmp_before_colon | done].
Defined.

Lemma labeled_data_path_datatype_not_str_witness :
  (∀ base_task,
     get_style_labeled_data_path 1%positive base_task
       (∅ : disk, <[1%positive := opt_none_datatype]> ∅)
     = (Raise AttributeError,
        ({[ "labeled_datasets" ]} ∪ ∅, <[1%positive := opt_none_datatype]> ∅))) ∧
  (∀ t shared,
     labeled_teacher_init reader_init t 1%positive shared
       (∅ : disk, <[1%positive := opt_none_datatype]> ∅)
     = (Raise AttributeError,
        ({[ "labeled_datasets" ]} ∪ ∅, <[1%positive := opt_none_datatype]> ∅))).
Proof.
  refine (labeled_data_path_datatype_not_str reader_init 1%positive ∅
           ({[ "labeled_datasets" ]} ∪ ∅)
           (<[1%positive := opt_none_datatype]> ∅)
           (<[1%positive := opt_none_datatype]> ∅) opt_none_datatype
           _ _ VNone _ _);
    first [reflexivity | apply train_before_colon | apply tmp_before_colon | done].
Defined.

Lemma labeled_data_path_missing_datapath_witness :
  (∀ base_task,
     get_style_labeled_data_path 1%positive base_task
       (∅ : disk, <[1%positive := opt_without_datapath]> ∅)
     = (Raise (KeyError "datapath"),
        ({[ "labeled_datasets" ]} ∪ ∅, <[1%positive := opt_without_datapath]> ∅))) ∧
  (∀ t shared,
     labeled_teacher_init reader_init t 1%positive shared
       (∅ : disk, <[1%positive := opt_without_datapath]> ∅)
     = (Raise (KeyError "datapath"),
        ({[ "labeled_datasets" ]} ∪ ∅, <[1%positive := opt_without_datapath]> ∅))).
Proof.
  refine (labeled_data_path_missing_datapath reader_init 1%positive ∅
           ({[ "labeled_datasets" ]} ∪ ∅)
           (<[1%positive := opt_without_datapath]> ∅)
           (<[1%positive := opt_without_datapath]> ∅) opt_without_datapath
           _ _ "train" _ _);
    first [reflexivity | apply train_before_colon | apply tmp_before_colon | done].
Defined.

Lemma labeled_data_path_of_prefix_witness :
  get_style_labeled_data_path 1%positive "blended_skill_talk"
    (∅ : disk, <[1%positive := example_opt]> ∅)
  = (Ret (os_path_join example_folder ["blended_skill_talk"; "train" +:+ ".txt"]),
     ({[ "labeled_datasets" ]} ∪ ∅, <[1%positive := example_opt]> ∅)).
Proof.
  refine (labeled_data_path_of_prefix 1%positive ∅
           ({[ "labeled_datasets" ]} ∪ ∅)
           (<[1%positive := example_opt]> ∅) (<[1%positive := example_opt]> ∅)
           example_opt _ _ "train:stream" (VStr "/data")
           example_folder _ _ _ "train" "blended_skill_talk" _);
    first [reflexivity | apply train_before_colon | apply tmp_before_colon | done].
Defined.

Lemma labeled_teacher_file_location_witness :
  get_style_labeled_data_path 1%positive
    (base_task_of LabeledWoWPersonaTopicifierTeacher)
    (∅ : disk, <[1%positive := example_opt]> ∅)
  = (Ret (example_folder +:+ sep_after example_folder
            +:+ base_task_of LabeledWoWPersonaTopicifierTeacher +:+ "/"
            +:+ "train" +:+ ".txt"),
     ({[ "labeled_datasets" ]} ∪ ∅, <[1%positive := example_opt]> ∅)).
Proof.
  refine (labeled_teacher_file_location 1%positive ∅
           ({[ "labeled_datasets" ]} ∪ ∅)
           (<[1%positive := example_opt]> ∅) (<[1%positive := example_opt]> ∅)
           example_opt _ _ "train:stream" (VStr "/data")
           example_folder _ _ _
           LabeledWoWPersonaTopicifierTeacher "train" _ _);
    first [reflexivity | apply train_before_colon | apply tmp_before_colon | done].
Defined.

Lemma labeled_teachers_read_distinct_files_witness :
  LabeledBlendedSkillTalkTeacher = LabeledBlendedSkillTalkTeacher.
Proof.
  refine (labeled_teachers_read_distinct_files 1%positive ∅
           ({[ "labeled_datasets" ]} ∪ ∅)
           (<[1%positive := example_opt]> ∅) (<[1%positive := example_opt]> ∅)
           example_opt _ _ "train:stream" (VStr "/data")
           example_folder _ _ _
           LabeledBlendedSkillTalkTeacher LabeledBlendedSkillTalkTeacher
           "/data/style_gen/labeled_datasets/blended_skill_talk/train.txt"
           _ _ _);
    first [reflexivity | apply train_before_colon | apply tmp_before_colon | done].
Defined.

Lemma labeled_data_path_absolute_datatype_witness :
  get_style_labeled_data_path 1%positive "blended_skill_talk"
    (∅ : disk, <[1%positive := opt_absolute_datatype]> ∅)
  = (Ret ("/tmp/x" +:+ ".txt"),
     ({[ "labeled_datasets" ]} ∪ ∅, <[1%positive := opt_absolute_datatype]> ∅)).
Proof.
  refine (labeled_data_path_absolute_datatype 1%positive ∅
           ({[ "labeled_datasets" ]} ∪ ∅)
           (<[1%positive := opt_absolute_datatype]> ∅)
           (<[1%positive := opt_absolute_datatype]> ∅)
           opt_absolute_datatype _ _ "/tmp/x:stream" (VStr "/data")
           example_folder _ _ _ "/tmp/x" "blended_skill_talk" _ _);
    first [reflexivity | apply train_before_colon | apply tmp_before_colon | done].
Defined.

Lemma personality_list_path_after_build_witness :
  get_personality_list_path 1%positive
    (∅ : disk, <[1%positive := example_opt]> ∅)
  = (Ret (os_path_join "/data" [TASK_FOLDER_NAME; "personality_list.txt"]),
     ({[ "personality_list.txt" ]} ∪ ∅, <[1%positive := example_opt]> ∅)).
Proof.
  refine (personality_list_path_after_build 1%positive ∅
           ({[ "personality_list.txt" ]} ∪ ∅)
           (<[1%positive := example_opt]> ∅) (<[1%positive := example_opt]> ∅)
           example_opt _ "/data" (Ret tt) _ _);
    first [reflexivity | apply train_before_colon | apply tmp_before_colon | done].
Defined.

Lemma personality_list_path_missing_datapath_witness :
  get_personality_list_path 1%positive
    (∅ : disk, <[1%positive := opt_without_datapath]> ∅)
  = (Raise (KeyError "datapath"),
     ({[ "personality_list.txt" ]} ∪ ∅, <[1%positive := opt_without_datapath]> ∅)).
Proof.
  refine (personality_list_path_missing_datapath 1%positive ∅
           ({[ "personality_list.txt" ]} ∪ ∅)
           (<[1%positive := opt_without_datapath]> ∅)
           (<[1%positive := opt_without_datapath]> ∅)
           opt_without_datapath _ _ _);
    first [reflexivity | apply train_before_colon | apply tmp_before_colon | done].
Defined.

Lemma personality_list_path_datapath_not_str_witness :
  get_personality_list_path 1%positive
    (∅ : disk, <[1%positive := opt_int_datapath]> ∅)
  = (Raise TypeError,
     ({[ "personality_list.txt" ]} ∪ ∅, <[1%positive := opt_int_datapath]> ∅)).
Proof.
  refine (personality_list_path_datapath_not_str 1%positive ∅
           ({[ "personality_list.txt" ]} ∪ ∅)
           (<[1%positive := opt_int_datapath]> ∅)
           (<[1%positive := opt_int_datapath]> ∅)
           opt_int_datapath _ (VInt 3) _ _ _);
    first [reflexivity | apply train_before_colon | apply tmp_before_colon | done].
Defined.

Lemma edited_text_of_last_line_witness :
  edited_field "text"
    (edit_fields teacher_name 1%positive (<[1%positive := example_turn]> ∅))
  = Some (VStr (("how are you" +:+ NL) +:+ "good thanks")).
Proof.
  refine (edited_text_of_last_line teacher_name
            (<[1%positive := example_turn]> ∅) 1%positive example_turn
            (VList [VStr "good thanks"]) "good thanks"
            ("hi" +:+ NL +:+ "how are you") (VStr "cheerful")
            _ _ _ _ _ _ "how are you" _);
    first [ reflexivity | by left | by apply str_contains_char_false
          | split; [by apply str_contains_char_false | right; by exists "hi"] ].
Defined.

Lemma set_datafile_twice_witness :
  ∃ h2,
    set_datafile LabeledBlendedSkillTalkTeacher 1%positive
      (∅ : disk, <[1%positive := example_opt]> ∅)
    = (Ret tt, ({[ "labeled_datasets" ]} ∪ ∅, h2)) ∧
    ∀ d'',
      build_style_labeled_datasets 1%positive
        ({[ "labeled_datasets" ]} ∪ ∅ : disk, h2) = (Ret tt, (d'', h2)) →
      set_datafile LabeledBlendedSkillTalkTeacher 1%positive
        ({[ "labeled_datasets" ]} ∪ ∅ : disk, h2) = (Ret tt, (d'', h2)).
Proof.
  refine (set_datafile_twice 1%positive ∅ ({[ "labeled_datasets" ]} ∪ ∅)
            (<[1%positive := example_opt]> ∅) (<[1%positive := example_opt]> ∅)
            example_opt _ _ "train:stream" (VStr "/data") example_folder
            _ _ _ LabeledBlendedSkillTalkTeacher);
    reflexivity.
Defined.
